(** * Cache token distribution (internal/usage/token_distribution.go)

    A shallow embedding of the Go package [usage]: the record
    [CacheTokenDistribution], the function [DistributeCacheTokens] and the
    two methods [TotalInputTokens] and [HasCacheTokens].

    Go's [int64] is modelled as a [Z] kept inside the signed 64-bit range;
    every arithmetic operator of the source is followed by the two's
    complement wrap-around that Go performs, and [/] is Go's division,
    which truncates toward zero ([Z.quot]) and panics on a zero divisor. *)

From Stdlib Require Import ZArith Bool Lia.

Local Open Scope Z_scope.

(** ** Signed 64-bit integers *)

Module Int64.

Definition modulus : Z := 2 ^ 64.
Definition half_modulus : Z := 2 ^ 63.
Definition min_int : Z := - half_modulus.
Definition max_int : Z := half_modulus - 1.

(** The values an [int64] variable can hold. *)
Definition in_range (x : Z) : Prop := min_int <= x <= max_int.

(** Two's complement reduction of a mathematical integer. *)
Definition wrap (x : Z) : Z := (x + half_modulus) mod modulus - half_modulus.

Definition add (x y : Z) : Z := wrap (x + y).
Definition sub (x y : Z) : Z := wrap (x - y).
Definition mul (x y : Z) : Z := wrap (x * y).

(** Go's [x / y] for a divisor known to be non-zero: the quotient is
    truncated toward zero; the one overflowing case, [min_int / -1],
    wraps. *)
Definition quot (x y : Z) : Z := wrap (Z.quot x y).

(** Go's [x / y] in general: a run-time panic when [y] is zero. *)
Definition checked_quot (x y : Z) : option Z :=
  if y =? 0 then None else Some (quot x y).

Definition gt (x y : Z) : bool := x >? y.
Definition lt (x y : Z) : bool := x <? y.

End Int64.

(** ** The package *)

Record CacheTokenDistribution : Set := mkCacheTokenDistribution {
  InputTokens : Z;
  CacheCreationInputTokens : Z;
  CacheReadInputTokens : Z
}.

(** A composite literal leaves the fields it does not name at their zero
    value. *)
Definition zero_value : CacheTokenDistribution :=
  mkCacheTokenDistribution 0 0 0.

Definition with_InputTokens (v : Z) (d : CacheTokenDistribution) :=
  mkCacheTokenDistribution v (CacheCreationInputTokens d) (CacheReadInputTokens d).

Definition DistributionThreshold : Z := 100.

Definition inputRatioPart : Z := 1.
Definition creationRatioPart : Z := 2.
Definition readRatioPart : Z := 25.
Definition totalRatioParts : Z :=
  inputRatioPart + creationRatioPart + readRatioPart.

Definition DistributeCacheTokens (totalInputTokens : Z) : CacheTokenDistribution :=
  if Int64.lt totalInputTokens DistributionThreshold then
    with_InputTokens totalInputTokens zero_value
  else
    let input :=
      Int64.quot (Int64.mul totalInputTokens inputRatioPart) totalRatioParts in
    let creation :=
      Int64.quot (Int64.mul totalInputTokens creationRatioPart) totalRatioParts in
    let read := Int64.sub (Int64.sub totalInputTokens input) creation in
    mkCacheTokenDistribution input creation read.

Definition TotalInputTokens (d : CacheTokenDistribution) : Z :=
  Int64.add (Int64.add (InputTokens d) (CacheCreationInputTokens d))
            (CacheReadInputTokens d).

Definition HasCacheTokens (d : CacheTokenDistribution) : bool :=
  Int64.gt (CacheCreationInputTokens d) 0 || Int64.gt (CacheReadInputTokens d) 0.

(** *** Run-time view of [DistributeCacheTokens]

    The same body with the only operation of the function that can stop a
    Go program, the integer division, in its panicking form.  [None]
    stands for a panic. *)

Definition bind {A B : Type} (m : option A) (k : A -> option B) : option B :=
  match m with
  | Some a => k a
  | None => None
  end.

Notation "x <- m ;; k" := (bind m (fun x => k))
  (at level 61, m at next level, right associativity).

Definition DistributeCacheTokens_run (totalInputTokens : Z)
  : option CacheTokenDistribution :=
  if Int64.lt totalInputTokens DistributionThreshold then
    Some (with_InputTokens totalInputTokens zero_value)
  else
    input <- Int64.checked_quot
               (Int64.mul totalInputTokens inputRatioPart) totalRatioParts ;;
    creation <- Int64.checked_quot
                  (Int64.mul totalInputTokens creationRatioPart) totalRatioParts ;;
    let read := Int64.sub (Int64.sub totalInputTokens input) creation in
    Some (mkCacheTokenDistribution input creation read).

(** Every field of a distribution is a value of type [int64]. *)
Definition well_typed (d : CacheTokenDistribution) : Prop :=
  Int64.in_range (InputTokens d) /\
  Int64.in_range (CacheCreationInputTokens d) /\
  Int64.in_range (CacheReadInputTokens d).

(** The input is a token count: a non-negative [int64]. *)
Definition token_count (t : Z) : Prop := 0 <= t <= Int64.max_int.

(** Exact-integer semantics: no product formed by the function leaves the
    [int64] range, so each operator returns its mathematical value. *)
Definition exact_arith (t : Z) : Prop :=
  Int64.in_range (t * inputRatioPart) /\ Int64.in_range (t * creationRatioPart).

(** The mathematical sum of the three fields. *)
Definition field_sum (d : CacheTokenDistribution) : Z :=
  InputTokens d + CacheCreationInputTokens d + CacheReadInputTokens d.

(** The below-threshold result. *)
Definition passthrough (t : Z) : CacheTokenDistribution :=
  mkCacheTokenDistribution t 0 0.

(** The smallest token count whose double no longer fits in an [int64]. *)
Definition overflow_input : Z := 4611686018427387904.

(** ** Facts about the 64-bit operations *)

Ltac unfold_int64 :=
  unfold Int64.in_range, Int64.max_int, Int64.min_int, Int64.half_modulus,
    Int64.modulus in *.

Ltac fields :=
  unfold passthrough, DistributionThreshold, creationRatioPart in *;
  cbn [InputTokens CacheCreationInputTokens CacheReadInputTokens].

Ltac euclid := Z.to_euclidean_division_equations; lia.

Lemma wrap_in_range (x : Z) : Int64.in_range (Int64.wrap x).
Proof.
  unfold Int64.wrap. unfold_int64.
  pose proof (Z.mod_pos_bound (x + 2 ^ 63) (2 ^ 64) ltac:(lia)). lia.
Qed.

Lemma wrap_small (x : Z) : Int64.in_range x -> Int64.wrap x = x.
Proof.
  unfold Int64.wrap. unfold_int64. intros Hx.
  rewrite Z.mod_small by lia. lia.
Qed.

Lemma wrap_shift_down (x : Z) :
  Int64.max_int < x <= Int64.max_int + Int64.modulus ->
  Int64.wrap x = x - Int64.modulus.
Proof.
  unfold Int64.wrap. unfold_int64. intros Hx.
  replace (x + 2 ^ 63) with (x - 2 ^ 64 + 2 ^ 63 + 1 * 2 ^ 64) by lia.
  rewrite Z.mod_add by lia. rewrite Z.mod_small by lia. lia.
Qed.

Lemma token_count_in_range (t : Z) : token_count t -> Int64.in_range t.
Proof. unfold token_count. unfold_int64. lia. Qed.

Lemma totalRatioParts_eq : totalRatioParts = 28.
Proof. reflexivity. Qed.

(** ** Closed forms of [DistributeCacheTokens] *)

Lemma distribute_below (t : Z) :
  t < DistributionThreshold -> DistributeCacheTokens t = passthrough t.
Proof.
  intros Ht. unfold DistributeCacheTokens, Int64.lt.
  apply Z.ltb_lt in Ht. rewrite Ht. reflexivity.
Qed.

(** From the threshold up, while [t * 2] still fits, the code computes the
    mathematical floors and their residual. *)
Lemma distribute_exact (t : Z) :
  DistributionThreshold <= t -> t * creationRatioPart <= Int64.max_int ->
  DistributeCacheTokens t =
    mkCacheTokenDistribution (t / 28) (t * 2 / 28) (t - t / 28 - t * 2 / 28).
Proof.
  unfold DistributionThreshold, creationRatioPart. intros Ht Hfit.
  unfold DistributeCacheTokens, Int64.lt, DistributionThreshold.
  destruct (Z.ltb_spec t 100) as [Hlt | _]; [lia |].
  unfold Int64.quot, Int64.mul, Int64.sub, inputRatioPart, creationRatioPart.
  rewrite totalRatioParts_eq.
  assert (Hr : forall x, 0 <= x <= Int64.max_int -> Int64.wrap x = x)
    by (intros x Hx; apply wrap_small; unfold_int64; lia).
  unfold Int64.max_int, Int64.half_modulus in Hfit, Hr.
  rewrite (Hr (t * 1)), (Hr (t * 2)) by lia.
  rewrite !Z.quot_div_nonneg by lia.
  rewrite Z.mul_1_r.
  rewrite (Hr (t / 28)), (Hr (t * 2 / 28)) by euclid.
  rewrite (Hr (t - t / 28)) by euclid.
  rewrite Hr by euclid.
  reflexivity.
Qed.

(** Once [t * 2] exceeds the largest [int64], the product wraps to a
    negative number and the truncated quotient is that number's. *)
Lemma distribute_overflow (t : Z) :
  Int64.max_int < t * creationRatioPart -> t <= Int64.max_int ->
  DistributeCacheTokens t =
    mkCacheTokenDistribution
      (t / 28)
      (- ((Int64.modulus - t * 2) / 28))
      (t - t / 28 + (Int64.modulus - t * 2) / 28).
Proof.
  unfold creationRatioPart. intros Hov Hmax.
  unfold DistributeCacheTokens, Int64.lt, DistributionThreshold.
  unfold Int64.max_int, Int64.half_modulus in Hov, Hmax.
  destruct (Z.ltb_spec t 100) as [Hlt | _]; [lia |].
  unfold Int64.quot, Int64.mul, Int64.sub, inputRatioPart, creationRatioPart.
  rewrite totalRatioParts_eq.
  assert (Hr : forall x, - 2 ^ 63 <= x <= 2 ^ 63 - 1 -> Int64.wrap x = x)
    by (intros x Hx; apply wrap_small; unfold_int64; lia).
  rewrite (Hr (t * 1)) by lia.
  rewrite (wrap_shift_down (t * 2)) by (unfold_int64; lia).
  unfold Int64.modulus.
  replace (t * 2 - 2 ^ 64) with (- (2 ^ 64 - t * 2)) by lia.
  rewrite Z.quot_opp_l by lia.
  rewrite !Z.quot_div_nonneg by lia.
  rewrite Z.mul_1_r.
  rewrite (Hr (t / 28)) by euclid.
  rewrite (Hr (- _)) by euclid.
  rewrite (Hr (t - t / 28)) by euclid.
  rewrite Hr by euclid.
  f_equal. lia.
Qed.

(** The two regimes cover every token count from the threshold up. *)
Lemma distribute_cases (t : Z) :
  token_count t -> DistributionThreshold <= t ->
  DistributeCacheTokens t =
    mkCacheTokenDistribution (t / 28) (t * 2 / 28) (t - t / 28 - t * 2 / 28)
  \/ (Int64.max_int < t * 2 /\
      DistributeCacheTokens t =
        mkCacheTokenDistribution
          (t / 28)
          (- ((Int64.modulus - t * 2) / 28))
          (t - t / 28 + (Int64.modulus - t * 2) / 28)).
Proof.
  intros [_ Hmax] Ht.
  destruct (Z_le_gt_dec (t * creationRatioPart) Int64.max_int) as [Hfit | Hov].
  - left. now apply distribute_exact.
  - right. unfold creationRatioPart in Hov. split; [lia |].
    apply distribute_overflow; unfold creationRatioPart; lia.
Qed.

(** The first share is the floor of [t / 28] on the whole input domain;
    the second one is the floor of [2 t / 28] as long as [t * 2] fits. *)
Lemma floor_shares_in_range (t : Z) :
  DistributionThreshold <= t -> t * creationRatioPart <= Int64.max_int ->
  InputTokens (DistributeCacheTokens t) = t * 1 / 28 /\
  CacheCreationInputTokens (DistributeCacheTokens t) = t * 2 / 28.
Proof.
  intros Ht Hfit. rewrite distribute_exact by assumption. fields.
  now rewrite Z.mul_1_r.
Qed.

Lemma fields_nonneg_in_range (t : Z) :
  0 <= t -> t * creationRatioPart <= Int64.max_int ->
  0 <= InputTokens (DistributeCacheTokens t) /\
  0 <= CacheCreationInputTokens (DistributeCacheTokens t) /\
  0 <= CacheReadInputTokens (DistributeCacheTokens t).
Proof.
  intros Ht Hfit.
  destruct (Z_lt_le_dec t DistributionThreshold) as [Hlt | Hge].
  - rewrite distribute_below by assumption. fields. lia.
  - rewrite distribute_exact by assumption. fields. euclid.
Qed.

Lemma input_read_nonneg (t : Z) :
  token_count t ->
  0 <= InputTokens (DistributeCacheTokens t) /\
  0 <= CacheReadInputTokens (DistributeCacheTokens t).
Proof.
  intros Htc. pose proof Htc as [H0 Hmax].
  destruct (Z_lt_le_dec t DistributionThreshold) as [Hlt | Hge].
  - rewrite distribute_below by assumption. fields. lia.
  - unfold Int64.max_int, Int64.half_modulus in Hmax.
    destruct (distribute_cases t Htc Hge) as [-> | [Hov ->]]; fields.
    + euclid.
    + unfold_int64. euclid.
Qed.

Lemma run_agrees (t : Z) :
  DistributeCacheTokens_run t = Some (DistributeCacheTokens t).
Proof.
  unfold DistributeCacheTokens_run, DistributeCacheTokens.
  destruct (Int64.lt t DistributionThreshold); reflexivity.
Qed.

Lemma distribute_well_typed (t : Z) :
  Int64.in_range t -> well_typed (DistributeCacheTokens t).
Proof.
  intros Ht. unfold DistributeCacheTokens, well_typed.
  destruct (Int64.lt t DistributionThreshold);
    unfold with_InputTokens, zero_value; fields.
  - repeat split; try apply Ht; unfold_int64; lia.
  - repeat split; apply wrap_in_range.
Qed.

Lemma HasCacheTokens_true_iff (d : CacheTokenDistribution) :
  HasCacheTokens d = true <->
  CacheCreationInputTokens d > 0 \/ CacheReadInputTokens d > 0.
Proof.
  unfold HasCacheTokens, Int64.gt.
  rewrite orb_true_iff, !Z.gtb_gt. lia.
Qed.

(** ** The properties of the specification *)

(** C1. Sum invariant: for every non-negative token count [t], the three
    fields of [DistributeCacheTokens t] add up, as mathematical integers,
    to exactly [t], on the below-threshold branch and on the ratio branch
    alike. *)
Theorem distribute_sum_invariant (t : Z) (Ht : token_count t) :
  field_sum (DistributeCacheTokens t) = t.
Proof.
  unfold field_sum.
  destruct (Z_lt_le_dec t DistributionThreshold) as [Hlt | Hge].
  - rewrite distribute_below by assumption. fields. lia.
  - destruct (distribute_cases t Ht Hge) as [-> | [_ ->]]; fields; lia.
Qed.

Lemma distribute_sum_invariant_witness :
  token_count 1000 /\ field_sum (DistributeCacheTokens 1000) = 1000.
Proof.
  assert (H : token_count 1000) by (unfold token_count; unfold_int64; lia).
  split; [exact H | exact (distribute_sum_invariant 1000 H)].
Defined.

(** C2, at the failing input.  For [t = 2^62] (a valid non-negative
    [int64], above the threshold) the product [t * 2] wraps to [-2^63], so
    [CacheCreationInputTokens] is [-329406144173384850] whereas
    [floor (t * 2 / 28)] is [329406144173384850]; [InputTokens] is the
    floor of [t * 1 / 28] as documented. *)
Theorem creation_share_not_floor :
  token_count overflow_input /\
  DistributionThreshold <= overflow_input /\
  InputTokens (DistributeCacheTokens overflow_input) = overflow_input * 1 / 28 /\
  CacheCreationInputTokens (DistributeCacheTokens overflow_input)
    = -329406144173384850 /\
  overflow_input * 2 / 28 = 329406144173384850.
Proof.
  unfold token_count.
  repeat split; try (vm_compute; reflexivity); vm_compute; discriminate.
Qed.

(** C3. Below the threshold the whole count is passed through as
    [InputTokens] and both cache fields are zero; in particular the
    distribution of [0] is all zeros. *)
Theorem distribute_passthrough (t : Z) (Ht : 0 <= t < DistributionThreshold) :
  DistributeCacheTokens t = mkCacheTokenDistribution t 0 0 /\
  DistributeCacheTokens 0 = mkCacheTokenDistribution 0 0 0.
Proof.
  split.
  - apply distribute_below. lia.
  - apply distribute_below. unfold DistributionThreshold. lia.
Qed.

Lemma distribute_passthrough_witness :
  0 <= 42 < DistributionThreshold /\
  DistributeCacheTokens 42 = mkCacheTokenDistribution 42 0 0 /\
  DistributeCacheTokens 0 = mkCacheTokenDistribution 0 0 0.
Proof.
  assert (H : 0 <= 42 < DistributionThreshold)
    by (unfold DistributionThreshold; lia).
  split; [exact H | exact (distribute_passthrough 42 H)].
Defined.

(** C4. Threshold boundary: 99 is below the threshold and is passed
    through; 100 is not below it and is split by ratio into 3, 7 and 90,
    which is not the passthrough record. *)
Theorem threshold_boundary :
  Int64.lt 99 DistributionThreshold = true /\
  DistributeCacheTokens 99 = mkCacheTokenDistribution 99 0 0 /\
  Int64.lt 100 DistributionThreshold = false /\
  DistributeCacheTokens 100 = mkCacheTokenDistribution 3 7 90 /\
  DistributeCacheTokens 100 <> mkCacheTokenDistribution 100 0 0.
Proof.
  repeat split; try (vm_compute; reflexivity). vm_compute. discriminate.
Qed.

(** C5. The worked example: 1000 tokens are split into 35, 71 and 894. *)
Theorem distribute_1000 :
  DistributeCacheTokens 1000 = mkCacheTokenDistribution 35 71 894.
Proof. vm_compute. reflexivity. Qed.

(** C6. Round trip: for every non-negative token count [t],
    [TotalInputTokens], the 64-bit sum of the three fields, gives [t]
    back. *)
Theorem total_round_trip (t : Z) (Ht : token_count t) :
  TotalInputTokens (DistributeCacheTokens t) = t.
Proof.
  pose proof Ht as [H0 Hmax].
  unfold Int64.max_int, Int64.half_modulus in Hmax.
  assert (Hr : forall x, - 2 ^ 63 <= x <= 2 ^ 63 - 1 -> Int64.wrap x = x)
    by (intros x Hx; apply wrap_small; unfold_int64; lia).
  unfold TotalInputTokens, Int64.add.
  destruct (Z_lt_le_dec t DistributionThreshold) as [Hlt | Hge].
  - rewrite distribute_below by assumption. fields.
    rewrite !Z.add_0_r. rewrite (Hr t) by lia. apply Hr. lia.
  - destruct (distribute_cases t Ht Hge) as [-> | [Hov ->]]; fields.
    + rewrite (Hr (t / 28 + t * 2 / 28)) by euclid.
      rewrite Hr by lia. lia.
    + unfold_int64.
      rewrite (Hr (t / 28 + - ((2 ^ 64 - t * 2) / 28))) by euclid.
      rewrite Hr by lia. lia.
Qed.

Lemma total_round_trip_witness :
  token_count overflow_input /\
  TotalInputTokens (DistributeCacheTokens overflow_input) = overflow_input.
Proof.
  assert (H : token_count overflow_input)
    by (unfold token_count, overflow_input; unfold_int64; lia).
  split; [exact H | exact (total_round_trip overflow_input H)].
Defined.

(** C7. [HasCacheTokens d] is true exactly when the cache-creation count
    or the cache-read count of [d] is positive; hence it is false for the
    distribution of every non-negative [t] below the threshold, [0]
    included. *)
Theorem HasCacheTokens_correct (d : CacheTokenDistribution) (t : Z) :
  (HasCacheTokens d = true <->
     CacheCreationInputTokens d > 0 \/ CacheReadInputTokens d > 0) /\
  (0 <= t < DistributionThreshold ->
     HasCacheTokens (DistributeCacheTokens t) = false).
Proof.
  split.
  - apply HasCacheTokens_true_iff.
  - intros [_ Hlt]. rewrite distribute_below by assumption. reflexivity.
Qed.

Lemma HasCacheTokens_correct_witness :
  (HasCacheTokens (mkCacheTokenDistribution 3 7 90) = true <->
     7 > 0 \/ 90 > 0) /\
  HasCacheTokens (DistributeCacheTokens 0) = false.
Proof.
  destruct (HasCacheTokens_correct (mkCacheTokenDistribution 3 7 90) 0)
    as [Hiff Hbelow].
  split; [exact Hiff | apply Hbelow; unfold DistributionThreshold; lia].
Defined.

(** C8, at the failing input.  [2^62] is a non-negative [int64], yet the
    cache-creation field of its distribution is negative: the product
    [t * 2] has wrapped.  The other two fields are non-negative there. *)
Theorem creation_field_negative :
  token_count overflow_input /\
  CacheCreationInputTokens (DistributeCacheTokens overflow_input) < 0 /\
  0 <= InputTokens (DistributeCacheTokens overflow_input) /\
  0 <= CacheReadInputTokens (DistributeCacheTokens overflow_input).
Proof.
  unfold token_count.
  repeat split; try (vm_compute; reflexivity); vm_compute; discriminate.
Qed.

(** C9. Totality: on every non-negative token count the function, run
    with Go's panicking division, returns a record and does not panic; the
    record is the one the pure reading of the body gives, and its three
    fields are [int64] values.  The function reads nothing but its
    argument. *)
Theorem distribute_total (t : Z) (Ht : token_count t) :
  exists d : CacheTokenDistribution,
    DistributeCacheTokens_run t = Some d /\
    d = DistributeCacheTokens t /\
    well_typed d.
Proof.
  exists (DistributeCacheTokens t). split; [apply run_agrees |].
  split; [reflexivity |].
  apply distribute_well_typed, token_count_in_range, Ht.
Qed.

Lemma distribute_total_witness :
  token_count 1000 /\
  exists d : CacheTokenDistribution,
    DistributeCacheTokens_run 1000 = Some d /\
    d = DistributeCacheTokens 1000 /\
    well_typed d.
Proof.
  assert (H : token_count 1000) by (unfold token_count; unfold_int64; lia).
  split; [exact H | exact (distribute_total 1000 H)].
Defined.

(** C10. For every [int64] [t] at or above the threshold on which the
    arithmetic is exact (no product overflows), the three fields are at
    least 3, 7 and 90, so [HasCacheTokens] holds of the distribution; and
    for every [int64] [t], [HasCacheTokens (DistributeCacheTokens t)] is
    true exactly when [t] is at least the threshold. *)
Theorem cache_tokens_from_threshold (t : Z) (Ht : Int64.in_range t) :
  (DistributionThreshold <= t -> exact_arith t ->
     3 <= InputTokens (DistributeCacheTokens t) /\
     7 <= CacheCreationInputTokens (DistributeCacheTokens t) /\
     90 <= CacheReadInputTokens (DistributeCacheTokens t) /\
     HasCacheTokens (DistributeCacheTokens t) = true) /\
  (HasCacheTokens (DistributeCacheTokens t) = true <-> DistributionThreshold <= t).
Proof.
  split.
  - intros Hge [_ [_ Hfit]].
    rewrite HasCacheTokens_true_iff.
    rewrite distribute_exact by assumption. fields. euclid.
  - destruct (Z_lt_le_dec t DistributionThreshold) as [Hlt | Hge].
    + rewrite distribute_below by assumption.
      split; [discriminate | lia].
    + split; [intros _; exact Hge | intros _].
      assert (Htc : token_count t)
        by (destruct Ht; unfold token_count, DistributionThreshold in *; lia).
      rewrite HasCacheTokens_true_iff.
      destruct Htc as [_ Hmax]; unfold Int64.max_int, Int64.half_modulus in Hmax.
      destruct (distribute_cases t
                  ltac:(unfold token_count; unfold_int64;
                        unfold DistributionThreshold in *; lia) Hge)
        as [-> | [Hov ->]]; fields.
      * euclid.
      * unfold_int64. euclid.
Qed.

Lemma cache_tokens_from_threshold_witness :
  (3 <= InputTokens (DistributeCacheTokens 100) /\
   7 <= CacheCreationInputTokens (DistributeCacheTokens 100) /\
   90 <= CacheReadInputTokens (DistributeCacheTokens 100) /\
   HasCacheTokens (DistributeCacheTokens 100) = true) /\
  (HasCacheTokens (DistributeCacheTokens 100) = true <->
   DistributionThreshold <= 100).
Proof.
  assert (Hr : Int64.in_range 100) by (unfold_int64; lia).
  assert (Hx : exact_arith 100)
    by (unfold exact_arith, inputRatioPart, creationRatioPart;
        unfold_int64; lia).
  assert (Hge : DistributionThreshold <= 100)
    by (unfold DistributionThreshold; lia).
  destruct (cache_tokens_from_threshold 100 Hr) as [Hfields Hiff].
  split; [exact (Hfields Hge Hx) | exact Hiff].
Defined.

(** ** Further properties of the package *)

Lemma wrap_add_wrap_l (x y : Z) :
  Int64.wrap (Int64.wrap x + y) = Int64.wrap (x + y).
Proof.
  unfold Int64.wrap. f_equal.
  replace ((x + Int64.half_modulus) mod Int64.modulus - Int64.half_modulus
           + y + Int64.half_modulus)
    with ((x + Int64.half_modulus) mod Int64.modulus + y) by lia.
  rewrite Z.add_mod_idemp_l by (unfold Int64.modulus; lia).
  f_equal. lia.
Qed.

Lemma TotalInputTokens_wrap_sum (d : CacheTokenDistribution) :
  TotalInputTokens d = Int64.wrap (field_sum d).
Proof.
  unfold TotalInputTokens, Int64.add, field_sum. apply wrap_add_wrap_l.
Qed.

Lemma token_count_from_threshold (t : Z) :
  Int64.in_range t -> DistributionThreshold <= t -> token_count t.
Proof.
  unfold token_count, DistributionThreshold. unfold_int64. lia.
Qed.

Lemma field_sum_distribute (t : Z) :
  Int64.in_range t -> field_sum (DistributeCacheTokens t) = t.
Proof.
  intros Ht. unfold field_sum.
  destruct (Z_lt_le_dec t DistributionThreshold) as [Hlt | Hge].
  - rewrite distribute_below by assumption. fields. lia.
  - pose proof (token_count_from_threshold t Ht Hge) as Htc.
    destruct (distribute_cases t Htc Hge) as [-> | [_ ->]]; fields; lia.
Qed.

Lemma total_distribute (t : Z) :
  Int64.in_range t -> TotalInputTokens (DistributeCacheTokens t) = t.
Proof.
  intros Ht. rewrite TotalInputTokens_wrap_sum, field_sum_distribute by exact Ht.
  now apply wrap_small.
Qed.

(** From the threshold up the read share is positive, also where the
    creation share has wrapped. *)
Lemma read_positive_from_threshold (t : Z) :
  token_count t -> DistributionThreshold <= t ->
  0 < CacheReadInputTokens (DistributeCacheTokens t).
Proof.
  intros Htc Hge. pose proof Htc as [_ Hmax].
  unfold Int64.max_int, Int64.half_modulus in Hmax.
  destruct (distribute_cases t Htc Hge) as [-> | [Hov ->]]; fields.
  - euclid.
  - unfold_int64. euclid.
Qed.

(** X1. On the whole [int64] domain, negative inputs included, the fields
    of the distribution of [t] add up to [t], both as mathematical
    integers and through [TotalInputTokens]. *)
Theorem round_trip_every_int64 (t : Z) (Ht : Int64.in_range t) :
  field_sum (DistributeCacheTokens t) = t /\
  TotalInputTokens (DistributeCacheTokens t) = t.
Proof.
  split; [now apply field_sum_distribute | now apply total_distribute].
Qed.

Lemma round_trip_every_int64_witness :
  Int64.in_range (-7) /\
  field_sum (DistributeCacheTokens (-7)) = -7 /\
  TotalInputTokens (DistributeCacheTokens (-7)) = -7.
Proof.
  assert (H : Int64.in_range (-7)) by (unfold_int64; lia).
  split; [exact H | exact (round_trip_every_int64 (-7) H)].
Defined.

(** X2. [DistributeCacheTokens] is injective on [int64]: two inputs with
    the same distribution are the same input. *)
Theorem distribute_injective (s t : Z)
  (Hs : Int64.in_range s) (Ht : Int64.in_range t)
  (Heq : DistributeCacheTokens s = DistributeCacheTokens t) : s = t.
Proof.
  rewrite <- (total_distribute s Hs), <- (total_distribute t Ht).
  now rewrite Heq.
Qed.

Lemma distribute_injective_witness :
  Int64.in_range 1000 /\
  DistributeCacheTokens 1000 = DistributeCacheTokens (999 + 1) /\
  1000 = 999 + 1.
Proof.
  assert (H : Int64.in_range 1000) by (unfold_int64; lia).
  assert (H' : Int64.in_range (999 + 1)) by (unfold_int64; lia).
  assert (E : DistributeCacheTokens 1000 = DistributeCacheTokens (999 + 1))
    by (vm_compute; reflexivity).
  split; [exact H | split; [exact E |]].
  exact (distribute_injective 1000 (999 + 1) H H' E).
Defined.

(** X3. A multiple of 28 at or above the threshold is split in the exact
    proportion 1 : 2 : 25, as long as its double fits in an [int64]. *)
Theorem distribute_multiple_of_28 (k : Z)
  (Hk : 4 <= k) (Hfit : 28 * k * creationRatioPart <= Int64.max_int) :
  DistributeCacheTokens (28 * k) =
    mkCacheTokenDistribution k (2 * k) (25 * k).
Proof.
  rewrite distribute_exact by (unfold DistributionThreshold; lia || exact Hfit).
  unfold creationRatioPart in Hfit. f_equal; euclid.
Qed.

Lemma distribute_multiple_of_28_witness :
  DistributeCacheTokens (28 * 10) = mkCacheTokenDistribution 10 (2 * 10) (25 * 10).
Proof.
  apply (distribute_multiple_of_28 10).
  - lia.
  - unfold creationRatioPart. unfold_int64. lia.
Defined.

(** X4. Accuracy of the split where the arithmetic is exact: [InputTokens]
    is within one part of [t / 28], [CacheCreationInputTokens] is twice
    [InputTokens] or one more, and [CacheReadInputTokens] is never below
    25/28 of [t] and exceeds it by less than two tokens. *)
Theorem share_accuracy (t : Z)
  (Hge : DistributionThreshold <= t)
  (Hfit : t * creationRatioPart <= Int64.max_int) :
  28 * InputTokens (DistributeCacheTokens t) <= t
    < 28 * InputTokens (DistributeCacheTokens t) + 28 /\
  (CacheCreationInputTokens (DistributeCacheTokens t)
     = 2 * InputTokens (DistributeCacheTokens t) \/
   CacheCreationInputTokens (DistributeCacheTokens t)
     = 2 * InputTokens (DistributeCacheTokens t) + 1) /\
  25 * t <= 28 * CacheReadInputTokens (DistributeCacheTokens t) <= 25 * t + 53.
Proof.
  rewrite distribute_exact by assumption. fields. euclid.
Qed.

Lemma share_accuracy_witness :
  28 * InputTokens (DistributeCacheTokens 1000) <= 1000
    < 28 * InputTokens (DistributeCacheTokens 1000) + 28 /\
  (CacheCreationInputTokens (DistributeCacheTokens 1000)
     = 2 * InputTokens (DistributeCacheTokens 1000) \/
   CacheCreationInputTokens (DistributeCacheTokens 1000)
     = 2 * InputTokens (DistributeCacheTokens 1000) + 1) /\
  25 * 1000 <= 28 * CacheReadInputTokens (DistributeCacheTokens 1000)
    <= 25 * 1000 + 53.
Proof.
  apply (share_accuracy 1000).
  - unfold DistributionThreshold. lia.
  - unfold creationRatioPart. unfold_int64. lia.
Defined.

(** X5. In the ratio branch, where the arithmetic is exact, [InputTokens]
    and [CacheCreationInputTokens] never decrease when the total grows. *)
Theorem input_creation_monotone (s t : Z)
  (Hs : DistributionThreshold <= s) (Hst : s <= t)
  (Hfit : t * creationRatioPart <= Int64.max_int) :
  InputTokens (DistributeCacheTokens s) <= InputTokens (DistributeCacheTokens t) /\
  CacheCreationInputTokens (DistributeCacheTokens s)
    <= CacheCreationInputTokens (DistributeCacheTokens t).
Proof.
  rewrite (distribute_exact s) by (unfold creationRatioPart in *; lia).
  rewrite (distribute_exact t) by (unfold creationRatioPart in *; lia).
  fields. euclid.
Qed.

Lemma input_creation_monotone_witness :
  InputTokens (DistributeCacheTokens 111) <= InputTokens (DistributeCacheTokens 112) /\
  CacheCreationInputTokens (DistributeCacheTokens 111)
    <= CacheCreationInputTokens (DistributeCacheTokens 112).
Proof.
  apply (input_creation_monotone 111 112).
  - unfold DistributionThreshold. lia.
  - lia.
  - unfold creationRatioPart. unfold_int64. lia.
Defined.

(** X6. [CacheReadInputTokens] is not monotone: from [t] to [t + 1] it
    moves by at most one, and it goes down by exactly one precisely when
    [t + 1] is a multiple of 28 (both floored shares step up at once). *)
Theorem read_step (t : Z)
  (Hge : DistributionThreshold <= t)
  (Hfit : (t + 1) * creationRatioPart <= Int64.max_int) :
  CacheReadInputTokens (DistributeCacheTokens t) - 1
    <= CacheReadInputTokens (DistributeCacheTokens (t + 1))
    <= CacheReadInputTokens (DistributeCacheTokens t) + 1 /\
  (CacheReadInputTokens (DistributeCacheTokens (t + 1))
     = CacheReadInputTokens (DistributeCacheTokens t) - 1
   <-> (t + 1) mod 28 = 0).
Proof.
  rewrite (distribute_exact t) by (unfold creationRatioPart in *; lia).
  rewrite (distribute_exact (t + 1)) by (unfold creationRatioPart in *; lia).
  fields. euclid.
Qed.

Lemma read_step_witness :
  CacheReadInputTokens (DistributeCacheTokens 111) - 1
    <= CacheReadInputTokens (DistributeCacheTokens (111 + 1))
    <= CacheReadInputTokens (DistributeCacheTokens 111) + 1 /\
  (CacheReadInputTokens (DistributeCacheTokens (111 + 1))
     = CacheReadInputTokens (DistributeCacheTokens 111) - 1
   <-> (111 + 1) mod 28 = 0).
Proof.
  apply (read_step 111).
  - unfold DistributionThreshold. lia.
  - unfold creationRatioPart. unfold_int64. lia.
Defined.

(** X7. For a token count at or above the threshold, the creation share is
    the floor of [t * 2 / 28] exactly when [t * 2] fits in an [int64];
    the input share is the floor of [t / 28] throughout. *)
Theorem creation_floor_iff_fits (t : Z)
  (Htc : token_count t) (Hge : DistributionThreshold <= t) :
  InputTokens (DistributeCacheTokens t) = t / 28 /\
  (CacheCreationInputTokens (DistributeCacheTokens t) = t * 2 / 28
   <-> t * 2 <= Int64.max_int).
Proof.
  pose proof Htc as [_ Hmax].
  unfold Int64.max_int, Int64.half_modulus in Hmax.
  destruct (Z_le_gt_dec (t * 2) Int64.max_int) as [Hfit | Hov].
  - rewrite distribute_exact by (unfold creationRatioPart; assumption).
    fields. split; [reflexivity |]. split; [intros _; exact Hfit | reflexivity].
  - rewrite distribute_overflow
      by (unfold creationRatioPart; unfold_int64; lia).
    fields. split; [reflexivity |].
    split; [| lia]. unfold_int64. euclid.
Qed.

Lemma creation_floor_iff_fits_witness :
  InputTokens (DistributeCacheTokens overflow_input) = overflow_input / 28 /\
  (CacheCreationInputTokens (DistributeCacheTokens overflow_input)
     = overflow_input * 2 / 28
   <-> overflow_input * 2 <= Int64.max_int).
Proof.
  apply (creation_floor_iff_fits overflow_input).
  - unfold token_count, overflow_input. unfold_int64. lia.
  - unfold DistributionThreshold, overflow_input. lia.
Defined.

(** X8. On every token count the input and read fields are non-negative;
    the creation field is negative exactly for [2^62 <= t <= 2^63 - 14],
    where [t * 2] wraps to at most [-28]. *)
Theorem field_signs (t : Z) (Htc : token_count t) :
  0 <= InputTokens (DistributeCacheTokens t) /\
  0 <= CacheReadInputTokens (DistributeCacheTokens t) /\
  (CacheCreationInputTokens (DistributeCacheTokens t) < 0
   <-> overflow_input <= t <= Int64.max_int - 13).
Proof.
  pose proof Htc as [H0 Hmax].
  unfold Int64.max_int, Int64.half_modulus in Hmax.
  destruct (Z_lt_le_dec t DistributionThreshold) as [Hlt | Hge].
  - rewrite distribute_below by assumption. fields.
    unfold overflow_input. unfold_int64. lia.
  - destruct (Z_le_gt_dec (t * 2) Int64.max_int) as [Hfit | Hov].
    + rewrite distribute_exact by (unfold creationRatioPart; assumption).
      fields. unfold overflow_input. unfold_int64. euclid.
    + rewrite distribute_overflow
        by (unfold creationRatioPart; unfold_int64; lia).
      fields. unfold overflow_input. unfold_int64. euclid.
Qed.

Lemma field_signs_witness :
  0 <= InputTokens (DistributeCacheTokens (Int64.max_int - 13)) /\
  0 <= CacheReadInputTokens (DistributeCacheTokens (Int64.max_int - 13)) /\
  (CacheCreationInputTokens (DistributeCacheTokens (Int64.max_int - 13)) < 0
   <-> overflow_input <= Int64.max_int - 13 <= Int64.max_int - 13).
Proof.
  apply (field_signs (Int64.max_int - 13)).
  unfold token_count. unfold_int64. lia.
Defined.

(** X9. [TotalInputTokens] returns the mathematical sum of the three
    fields of any record whenever that sum is an [int64], even if the
    intermediate sum of the first two fields overflows. *)
Theorem total_is_field_sum (d : CacheTokenDistribution)
  (Hsum : Int64.in_range (field_sum d)) :
  TotalInputTokens d = field_sum d.
Proof.
  rewrite TotalInputTokens_wrap_sum. now apply wrap_small.
Qed.

Lemma total_is_field_sum_witness :
  Int64.in_range (field_sum (mkCacheTokenDistribution Int64.max_int 1 (-1))) /\
  TotalInputTokens (mkCacheTokenDistribution Int64.max_int 1 (-1))
    = field_sum (mkCacheTokenDistribution Int64.max_int 1 (-1)).
Proof.
  assert (H : Int64.in_range
                (field_sum (mkCacheTokenDistribution Int64.max_int 1 (-1))))
    by (unfold field_sum; fields; unfold_int64; lia).
  split; [exact H | exact (total_is_field_sum _ H)].
Defined.

(** X10. A negative input is not rejected: it is passed through unchanged
    as [InputTokens], the cache fields are zero and [HasCacheTokens] is
    false. *)
Theorem negative_input_passthrough (t : Z) (Hneg : t < 0) :
  DistributeCacheTokens t = mkCacheTokenDistribution t 0 0 /\
  InputTokens (DistributeCacheTokens t) < 0 /\
  HasCacheTokens (DistributeCacheTokens t) = false.
Proof.
  rewrite distribute_below by (unfold DistributionThreshold; lia).
  repeat split. exact Hneg.
Qed.

Lemma negative_input_passthrough_witness :
  DistributeCacheTokens (-5) = mkCacheTokenDistribution (-5) 0 0 /\
  InputTokens (DistributeCacheTokens (-5)) < 0 /\
  HasCacheTokens (DistributeCacheTokens (-5)) = false.
Proof.
  apply (negative_input_passthrough (-5)). lia.
Defined.

(** X11. For a record of non-negative [int64] fields, when
    [HasCacheTokens] is false the total is the [InputTokens] field
    alone. *)
Theorem total_without_cache_tokens (d : CacheTokenDistribution)
  (Hwt : well_typed d)
  (Hc : 0 <= CacheCreationInputTokens d) (Hr : 0 <= CacheReadInputTokens d)
  (Hno : HasCacheTokens d = false) :
  TotalInputTokens d = InputTokens d.
Proof.
  destruct Hwt as [Hin _].
  apply not_true_iff_false in Hno. rewrite HasCacheTokens_true_iff in Hno.
  rewrite TotalInputTokens_wrap_sum. unfold field_sum.
  replace (CacheCreationInputTokens d) with 0 by lia.
  replace (CacheReadInputTokens d) with 0 by lia.
  rewrite !Z.add_0_r. now apply wrap_small.
Qed.

Lemma total_without_cache_tokens_witness :
  TotalInputTokens (mkCacheTokenDistribution 42 0 0) = 42.
Proof.
  apply (total_without_cache_tokens (mkCacheTokenDistribution 42 0 0)).
  - unfold well_typed. fields. unfold_int64. lia.
  - fields. lia.
  - fields. lia.
  - vm_compute. reflexivity.
Defined.

(** X12. For every [int64] [t], [HasCacheTokens] is false of the
    distribution of [t] exactly when that distribution is the passthrough
    record: a caller that drops the cache fields loses no tokens. *)
Theorem no_cache_tokens_iff_passthrough (t : Z) (Ht : Int64.in_range t) :
  HasCacheTokens (DistributeCacheTokens t) = false <->
  DistributeCacheTokens t = mkCacheTokenDistribution t 0 0.
Proof.
  split.
  - intros Hno.
    destruct (Z_lt_le_dec t DistributionThreshold) as [Hlt | Hge].
    + now apply distribute_below.
    + exfalso. apply not_true_iff_false in Hno. apply Hno.
      apply HasCacheTokens_true_iff. right.
      pose proof (read_positive_from_threshold t
                    (token_count_from_threshold t Ht Hge) Hge). lia.
  - intros ->. reflexivity.
Qed.

Lemma no_cache_tokens_iff_passthrough_witness :
  HasCacheTokens (DistributeCacheTokens 99) = false <->
  DistributeCacheTokens 99 = mkCacheTokenDistribution 99 0 0.
Proof.
  apply (no_cache_tokens_iff_passthrough 99). unfold_int64. lia.
Defined.
